(** * keeper: a private-key keeper and the transaction signers built on it

    Shallow embedding of [keeper/keeper.go] (the [secureSigner] design) and of
    its sibling revision (the [SecureSign] struct design), followed by the
    properties of the two.

    The package is a thin layer over three collaborators whose code lives
    elsewhere: go-ethereum's [crypto] package, Go's [crypto/ecdsa], and
    go-ethereum's [core/types] (transactions and their signer/hasher).  They
    are an interface here ([External]); the functions of the package are
    translated over that interface, statement by statement. *)

From Stdlib Require Import List String NArith Lia Bool.
From Stdlib Require Import Strings.Byte.
Import ListNotations.

Set Implicit Arguments.

(* ===================================================================== *)
(** * Go values and control *)
(* ===================================================================== *)

(** A [[]byte]: [None] is the nil slice, [Some l] a slice with contents [l]. *)
Definition GoBytes : Type := option (list byte).

(** Go's [len] on a byte slice; the nil slice has length zero. *)
Definition len (b : GoBytes) : nat :=
  match b with
  | None => 0
  | Some l => List.length l
  end.

(** [common.Hash] is the array type [[32]byte]. *)
Definition HashLength : nat := 32.
Record Hash : Type := {
  Hash_bytes : list byte;
  Hash_length : List.length Hash_bytes = HashLength
}.

(** [h[:]], the array viewed as a (non-nil) slice. *)
Definition Hash_slice (h : Hash) : GoBytes := Some (Hash_bytes h).

(** A call either returns or panics. *)
Inductive outcome (A : Type) : Type :=
| Returned (a : A)
| Panicked.
Arguments Panicked {A}.

(** Code runs against a world [W] (entropy, remote devices, whatever a
    collaborator touches); a panic keeps the world reached so far. *)
Definition go (W A : Type) : Type := W -> outcome A * W.

Definition ret {W A} (a : A) : go W A := fun w => (Returned a, w).

Definition panic {W A} : go W A := fun w => (Panicked, w).

Definition bind {W A B} (c : go W A) (k : A -> go W B) : go W B :=
  fun w =>
    match c w with
    | (Returned a, w') => k a w'
    | (Panicked, w') => (Panicked, w')
    end.

Declare Scope go_scope.
Delimit Scope go_scope with go.
Notation "x <- c ;; k" := (bind c (fun x => k))
  (at level 61, c at next level, right associativity) : go_scope.
Notation "' pat <- c ;; k" := (bind c (fun x => match x with pat => k end))
  (at level 61, pat pattern, c at next level, right associativity) : go_scope.
Local Open Scope go_scope.

(** The dynamic type behind a [crypto.PublicKey] interface value, as far as
    the type assertion [.( *ecdsa.PublicKey)] can tell. *)
Inductive crypto_PublicKey (P : Type) : Type :=
| dyn_ecdsa_PublicKey (p : P)
| dyn_other.
Arguments dyn_other {P}.

(* ===================================================================== *)
(** * The collaborators *)
(* ===================================================================== *)

(** What the package imports.  Pointers are [option]s ([None] is nil).
    Parsing, serialisation and public-key derivation are functions of their
    arguments; key generation, signing, hashing a transaction and attaching a
    signature run in the world and may panic. *)
Class External : Type := {
  World : Type;
  (** values of Go's [error] interface, and [errors.New] *)
  error : Type;
  errors_New : string -> error;
  (** [ecdsa.PrivateKey] and [ecdsa.PublicKey] *)
  PrivateKey : Type;
  PublicKey : Type;
  (** [func (priv *PrivateKey) Public() crypto.PublicKey], non-nil receiver *)
  PrivateKey_Public : PrivateKey -> crypto_PublicKey PublicKey;
  (** [crypto.GenerateKey() ( *ecdsa.PrivateKey, error)] *)
  crypto_GenerateKey : go World (option PrivateKey * option error);
  (** [crypto.FromECDSA(priv *ecdsa.PrivateKey) []byte] *)
  crypto_FromECDSA : option PrivateKey -> GoBytes;
  (** [crypto.ToECDSA(d []byte) ( *ecdsa.PrivateKey, error)] *)
  crypto_ToECDSA : GoBytes -> option PrivateKey * option error;
  (** [crypto.FromECDSAPub(pub *ecdsa.PublicKey) []byte] *)
  crypto_FromECDSAPub : option PublicKey -> GoBytes;
  (** [crypto.Sign(digestHash []byte, prv *ecdsa.PrivateKey) ([]byte, error)] *)
  crypto_Sign : GoBytes -> option PrivateKey -> go World (GoBytes * option error);
  (** the provider's verification rule: public-key bytes, data, signature *)
  crypto_verifies : GoBytes -> GoBytes -> GoBytes -> bool;
  (** [types.Transaction] (used through pointers) and [types.Signer] values *)
  Transaction : Type;
  Signer : Type;
  (** [s.Hash(tx) common.Hash] *)
  Signer_Hash : Signer -> option Transaction -> go World Hash;
  (** [tx.WithSignature(s, sig) ( *Transaction, error)] *)
  Transaction_WithSignature :
    option Transaction -> Signer -> GoBytes ->
    go World (option Transaction * option error)
}.

(* ===================================================================== *)
(** * keeper.go *)
(* ===================================================================== *)

Section Keeper.
Context {E : External}.

Local Abbreviation M := (go World).
Local Abbreviation GoError := (option error).

(** [type PrivateKeyKeeper interface]: an implementation, as its method set. *)
Record PrivateKeyKeeper : Type := {
  GeneratePrivateKey : M (GoBytes * GoError);
  GetPublicKey : GoBytes -> M (GoBytes * GoError);
  Sign : GoBytes -> GoBytes -> M (GoBytes * GoError)
}.

(** A method call through an interface value; on the nil interface it is a
    nil dereference. *)
Definition invoke {A} (k : option PrivateKeyKeeper)
    (method : PrivateKeyKeeper -> M A) : M A :=
  match k with
  | None => panic
  | Some impl => method impl
  end.

(** [privateKey.Public()] through a pointer. *)
Definition Public (privateKey : option PrivateKey) : M (crypto_PublicKey PublicKey) :=
  match privateKey with
  | None => panic
  | Some k => ret (PrivateKey_Public k)
  end.

Definition defaultPrivateKeyKeeper_GeneratePrivateKey : M (GoBytes * GoError) :=
  '(privateKey, err) <- crypto_GenerateKey ;;
  match err with
  | Some _ => ret (None, err)
  | None =>
      let privateKeyBytes := crypto_FromECDSA privateKey in
      ret (privateKeyBytes, None)
  end.

Definition defaultPrivateKeyKeeper_GetPublicKey (prvID : GoBytes)
    : M (GoBytes * GoError) :=
  let '(privateKey, err) := crypto_ToECDSA prvID in
  match err with
  | Some _ => ret (None, err)
  | None =>
      pub <- Public privateKey ;;
      match pub with
      | dyn_other =>
          ret (None, Some (errors_New "cannot cast public key to ecsda public key"))
      | dyn_ecdsa_PublicKey publicKeyECDSA =>
          ret (crypto_FromECDSAPub (Some publicKeyECDSA), None)
      end
  end.

Definition defaultPrivateKeyKeeper_Sign (data prvID : GoBytes)
    : M (GoBytes * GoError) :=
  let '(prv, err) := crypto_ToECDSA prvID in
  match err with
  | Some _ => ret (None, err)
  | None =>
      '(sig, err) <- crypto_Sign data prv ;;
      match err with
      | Some _ => ret (None, err)
      | None => ret (sig, None)
      end
  end.

(** [&defaultPrivateKeyKeeper{}] as a [PrivateKeyKeeper]. *)
Definition defaultPrivateKeyKeeper : PrivateKeyKeeper := {|
  GeneratePrivateKey := defaultPrivateKeyKeeper_GeneratePrivateKey;
  GetPublicKey := defaultPrivateKeyKeeper_GetPublicKey;
  Sign := defaultPrivateKeyKeeper_Sign
|}.

(** [var defaultKeeper PrivateKeyKeeper = &defaultPrivateKeyKeeper{}]; nothing
    in the package assigns it again. *)
Definition defaultKeeper : option PrivateKeyKeeper := Some defaultPrivateKeyKeeper.

(** [type secureSigner struct { keeper PrivateKeyKeeper }] *)
Record secureSigner : Type := {
  secureSigner_keeper : option PrivateKeyKeeper
}.

Definition NewSecureSigner (keeper : option PrivateKeyKeeper) : secureSigner :=
  {| secureSigner_keeper := keeper |}.

Definition DefaultSecureSigner : secureSigner :=
  {| secureSigner_keeper := defaultKeeper |}.

Definition secureSigner_GenerateKey (sec : secureSigner) : M (GoBytes * GoError) :=
  '(prvID, err) <- invoke (secureSigner_keeper sec) GeneratePrivateKey ;;
  match err with
  | Some _ => ret (None, err)
  | None => ret (prvID, None)
  end.

Definition secureSigner_GetPublicKey (sec : secureSigner) (prvID : GoBytes)
    : M (GoBytes * GoError) :=
  '(pbl, err) <- invoke (secureSigner_keeper sec) (fun k => GetPublicKey k prvID) ;;
  match err with
  | Some _ => ret (None, err)
  | None => ret (pbl, None)
  end.

Definition secureSigner_Sign (sec : secureSigner) (tx : option Transaction)
    (s : Signer) (prvID : GoBytes) : M (option Transaction * GoError) :=
  h <- Signer_Hash s tx ;;
  '(sig, err) <- invoke (secureSigner_keeper sec) (fun k => Sign k (Hash_slice h) prvID) ;;
  match err with
  | Some _ => ret (None, err)
  | None => Transaction_WithSignature tx s sig
  end.

(* ===================================================================== *)
(** * The sibling revision: [SecureSign] *)
(* ===================================================================== *)

(** [type SecureSign struct { keeper PrivateKeyKeeper }] *)
Record SecureSign : Type := {
  SecureSign_keeper : option PrivateKeyKeeper
}.

(** Methods on [*SecureSign] write the receiver: they give the receiver as it
    is after the call next to what the call does. *)
Definition SecureSign_SetKeeper (a : SecureSign) (keeper : option PrivateKeyKeeper)
    : SecureSign :=
  {| SecureSign_keeper := keeper |}.

(** The assignment to [a.keeper] comes before every call, so it stands also
    when one of them panics. *)
Definition SecureSign_Sign (a : SecureSign) (tx : option Transaction)
    (s : Signer) (prvID : GoBytes)
    : SecureSign * M (option Transaction * GoError) :=
  let a :=
    match SecureSign_keeper a with
    | None => {| SecureSign_keeper := defaultKeeper |}
    | Some _ => a
    end in
  (a,
   h <- Signer_Hash s tx ;;
   '(sig, err) <- invoke (SecureSign_keeper a) (fun k => Sign k (Hash_slice h) prvID) ;;
   match err with
   | Some _ => ret (None, err)
   | None => Transaction_WithSignature tx s sig
   end).

(** The receiver after a run of [Sign] calls on a [SecureSign]. *)
Definition after_calls (a : SecureSign)
    (calls : list (option Transaction * Signer * GoBytes)) : SecureSign :=
  fold_left (fun a c => let '(tx, s, prvID) := c in fst (SecureSign_Sign a tx s prvID))
            calls a.

(** What a holder of a [*SecureSign] can do with it. *)
Inductive SecureSign_call : Type :=
| do_SetKeeper (keeper : option PrivateKeyKeeper)
| do_Sign (tx : option Transaction) (s : Signer) (prvID : GoBytes).

(** The receiver after one call, and after a list of them in order. *)
Definition SecureSign_after (a : SecureSign) (c : SecureSign_call) : SecureSign :=
  match c with
  | do_SetKeeper keeper => SecureSign_SetKeeper a keeper
  | do_Sign tx s prvID => fst (SecureSign_Sign a tx s prvID)
  end.

Definition SecureSign_history (a : SecureSign) (calls : list SecureSign_call)
    : SecureSign :=
  fold_left SecureSign_after calls a.

(** The keeper handed over last: the argument of the last [SetKeeper] among
    [calls], or [given] when there is none. *)
Fixpoint last_given (given : option PrivateKeyKeeper) (calls : list SecureSign_call)
    : option PrivateKeyKeeper :=
  match calls with
  | [] => given
  | do_SetKeeper keeper :: rest => last_given keeper rest
  | do_Sign _ _ _ :: rest => last_given given rest
  end.

(** The keeper a [SecureSign.Sign] signs with when the field holds [keeper]. *)
Definition signing_keeper (keeper : option PrivateKeyKeeper)
    : option PrivateKeyKeeper :=
  match keeper with
  | None => defaultKeeper
  | Some k => Some k
  end.

End Keeper.

(** What the package relies on from its collaborators: a generated key
    serialises to bytes that parse back to it, the public half of an ECDSA
    private key is an ECDSA public key, and a signature made with a key
    verifies against that key's serialised public half. *)
Class ExternalLaws (E : External) : Prop := {
  GenerateKey_reparses :
    forall w p w',
      crypto_GenerateKey w = (Returned (p, None), w') ->
      exists k, p = Some k /\
                crypto_ToECDSA (crypto_FromECDSA (Some k)) = (Some k, None);
  Public_is_ecdsa :
    forall k, exists pub, PrivateKey_Public k = dyn_ecdsa_PublicKey pub;
  Sign_verifies :
    forall k pub data w sig w',
      PrivateKey_Public k = dyn_ecdsa_PublicKey pub ->
      crypto_Sign data (Some k) w = (Returned (sig, None), w') ->
      crypto_verifies (crypto_FromECDSAPub (Some pub)) data sig = true
}.

(* ===================================================================== *)
(** * A small provider to run the package on *)
(* ===================================================================== *)

(** A stand-in for the collaborators, small enough to evaluate: 32-byte
    big-endian scalars below the secp256k1 group order as keys, a world made
    of an entropy tape and a journal of the calls that reached a
    collaborator.  Its "signature" binds the public key to the digest and
    nothing more; it protects nothing and is here to execute the code above
    and to show that [ExternalLaws] can be met. *)

Definition byte_of_N (n : N) : byte :=
  match Byte.of_N (n mod 256) with
  | Some b => b
  | None => x00
  end.

Fixpoint le_bytes (count : nat) (n : N) : list byte :=
  match count with
  | O => []
  | S c => byte_of_N n :: le_bytes c (n / 256)
  end.

(** Big-endian, fixed width. *)
Definition PaddedBigBytes (n : N) (count : nat) : list byte := rev (le_bytes count n).

(** Big-endian bytes to a number. *)
Definition SetBytes (l : list byte) : N :=
  fold_left (fun acc b => acc * 256 + Byte.to_N b)%N l 0%N.

Definition bytes_eqb (a b : list byte) : bool :=
  if list_eq_dec Byte.byte_eq_dec a b then true else false.

Definition secp256k1_N : N :=
  0xFFFFFFFFFFFFFFFFFFFFFFFFFFFFFFFEBAAEDCE6AF48A03BBFD25E8CD0364141%N.

Inductive Call : Type :=
| call_GenerateKey
| call_Sign (digest : list byte) (D : N)
| call_Hash (payload : list byte)
| call_WithSignature (sig : list byte).

Record SimWorld : Type := {
  entropy : list N;
  journal : list Call
}.

Definition log (c : Call) (w : SimWorld) : SimWorld :=
  {| entropy := entropy w; journal := journal w ++ [c] |}.

Record SimTransaction : Type := {
  payload : list byte;
  signature : GoBytes
}.

Definition sim_GenerateKey : go SimWorld (option N * option string) :=
  fun w =>
    match entropy w with
    | [] => (Returned (None, Some "entropy exhausted"%string), w)
    | r :: rest =>
        (Returned (Some (1 + r mod (secp256k1_N - 1))%N, None),
         {| entropy := rest; journal := journal w ++ [call_GenerateKey] |})
    end.

Definition sim_FromECDSA (priv : option N) : GoBytes :=
  match priv with
  | None => None
  | Some D => Some (PaddedBigBytes D 32)
  end.

Definition sim_ToECDSA (d : GoBytes) : option N * option string :=
  if negb (Nat.eqb (8 * len d) 256) then
    (None, Some "invalid length, need 256 bits"%string)
  else
    let D := SetBytes (match d with Some l => l | None => [] end) in
    if (secp256k1_N <=? D)%N then
      (None, Some "invalid private key, >=N"%string)
    else if (D =? 0)%N then
      (None, Some "invalid private key, zero or negative"%string)
    else (Some D, None).

(** Public half of the scalar [D]: a multiple of a fixed element, modulo the
    group order. *)
Definition sim_derive (D : N) : N := ((D * 7) mod secp256k1_N)%N.

Definition sim_FromECDSAPub (pub : option N) : GoBytes :=
  match pub with
  | None => None
  | Some Q => Some (x04 :: PaddedBigBytes Q 32)
  end.

(** 65 bytes: the public scalar (32), the digest (32), a zero byte. *)
Definition sim_tag (Q : N) (digest : list byte) : list byte :=
  PaddedBigBytes Q 32 ++ digest ++ [x00].

Definition sim_Sign (digestHash : GoBytes) (prv : option N)
    : go SimWorld (GoBytes * option string) :=
  fun w =>
    match prv with
    | None => (Panicked, w)
    | Some D =>
        match digestHash with
        | Some digest =>
            if Nat.eqb (List.length digest) 32 then
              (Returned (Some (sim_tag (sim_derive D) digest), None),
               log (call_Sign digest D) w)
            else
              (Returned (None, Some "hash is required to be exactly 32 bytes"%string), w)
        | None =>
            (Returned (None, Some "hash is required to be exactly 32 bytes"%string), w)
        end
    end.

Definition sim_verifies (pub data sig : GoBytes) : bool :=
  match pub, data, sig with
  | Some (_ :: Q), Some digest, Some s =>
      bytes_eqb s (Q ++ digest ++ [x00])
  | _, _, _ => false
  end.

(** The digest of the stand-in hasher: chain id, then payload, cut or
    zero-filled to 32 bytes. *)
Definition sim_digest (chain : N) (pl : list byte) : list byte :=
  firstn 32 (byte_of_N chain :: pl ++ repeat x00 32).

Definition sim_digest_length (chain : N) (pl : list byte)
    : List.length (sim_digest chain pl) = HashLength.
Proof.
  unfold sim_digest, HashLength.
  rewrite length_firstn. cbn [List.length]. rewrite length_app, repeat_length. lia.
Qed.

(** A nil signer (the nil interface) is [None]; a signer is its chain id. *)
Definition sim_Hash (s : option N) (tx : option SimTransaction) : go SimWorld Hash :=
  fun w =>
    match s, tx with
    | Some chain, Some t =>
        (Returned {| Hash_bytes := sim_digest chain (payload t);
                     Hash_length := sim_digest_length chain (payload t) |},
         log (call_Hash (payload t)) w)
    | _, _ => (Panicked, w)
    end.

Definition sim_WithSignature (tx : option SimTransaction) (s : option N)
    (sig : GoBytes) : go SimWorld (option SimTransaction * option string) :=
  fun w =>
    match tx, s with
    | Some t, Some _ =>
        if Nat.eqb (len sig) 65 then
          (Returned (Some {| payload := payload t; signature := sig |}, None),
           log (call_WithSignature (match sig with Some l => l | None => [] end)) w)
        else
          (Returned (None, Some "wrong size for signature"%string), w)
    | _, _ => (Panicked, w)
    end.

#[export] Instance sim : External := {|
  World := SimWorld;
  error := string;
  errors_New := fun msg => msg;
  PrivateKey := N;
  PublicKey := N;
  PrivateKey_Public := fun D => dyn_ecdsa_PublicKey (sim_derive D);
  crypto_GenerateKey := sim_GenerateKey;
  crypto_FromECDSA := sim_FromECDSA;
  crypto_ToECDSA := sim_ToECDSA;
  crypto_FromECDSAPub := sim_FromECDSAPub;
  crypto_Sign := sim_Sign;
  crypto_verifies := sim_verifies;
  Transaction := SimTransaction;
  Signer := option N;
  Signer_Hash := sim_Hash;
  Transaction_WithSignature := sim_WithSignature
|}.

(** Inputs for the runs below. *)
Definition w0 : SimWorld := {| entropy := [41; 1000]%N; journal := [] |}.
Definition w_dry : SimWorld := {| entropy := []; journal := [] |}.
Definition key42 : GoBytes := Some (PaddedBigBytes 42 32).
Definition ten_bytes : GoBytes := Some (repeat x07 10).
Definition tx1 : option SimTransaction :=
  Some {| payload := [x01; x02; x03]; signature := None |}.
Definition chain1 : option N := Some 1%N.
Definition h1 : Hash :=
  {| Hash_bytes := sim_digest 1 [x01; x02; x03];
     Hash_length := sim_digest_length 1 [x01; x02; x03] |}.

(** The worlds and values the run on [w0], [tx1], [chain1], [key42] goes
    through. *)
Definition w_generated : SimWorld :=
  {| entropy := [1000%N]; journal := [call_GenerateKey] |}.
Definition w_hashed : SimWorld := log (call_Hash [x01; x02; x03]) w0.
Definition sig1 : list byte := sim_tag (sim_derive 42) (Hash_bytes h1).
Definition w_signed : SimWorld := log (call_Sign (Hash_bytes h1) 42) w_hashed.
Definition pub42 : GoBytes := Some (x04 :: PaddedBigBytes (sim_derive 42) 32).
Definition signed_tx1 : SimTransaction :=
  {| payload := [x01; x02; x03]; signature := Some sig1 |}.
Definition w_done : SimWorld := log (call_WithSignature sig1) w_signed.

(** A keeper whose signatures are one byte long, which the stand-in
    [WithSignature] refuses. *)
Definition shortKeeper : @PrivateKeyKeeper sim := {|
  GeneratePrivateKey := ret (None, Some "unsupported"%string);
  GetPublicKey := fun _ => ret (None, Some "unsupported"%string);
  Sign := fun _ _ => ret (Some [x00], None)
|}.

(** A keeper that returns a result next to every error. *)
Definition loudKeeper : @PrivateKeyKeeper sim := {|
  GeneratePrivateKey := ret (Some [x01], Some "busy"%string);
  GetPublicKey := fun _ => ret (Some [x02], Some "busy"%string);
  Sign := fun _ _ => ret (Some [x03], Some "busy"%string)
|}.

(** A keeper whose every method panics. *)
Definition brokenKeeper : @PrivateKeyKeeper sim := {|
  GeneratePrivateKey := panic;
  GetPublicKey := fun _ => panic;
  Sign := fun _ _ => panic
|}.

(** The provider [sim] with three departures: the public half of a key is
    of a foreign dynamic type, the empty identifier parses to a nil key with
    a nil error, and a refused digest comes back with a one-byte signature
    next to the error. *)
Definition sim_ToECDSA_lax (d : GoBytes) : option N * option string :=
  match d with
  | Some [] => (None, None)
  | _ => sim_ToECDSA d
  end.

Definition sim_Sign_loud (digestHash : GoBytes) (prv : option N)
    : go SimWorld (GoBytes * option string) :=
  fun w =>
    match sim_Sign digestHash prv w with
    | (Returned (None, Some e), w') => (Returned (Some [x00], Some e), w')
    | r => r
    end.

Definition sim_foreign : External := {|
  World := SimWorld;
  error := string;
  errors_New := fun msg => msg;
  PrivateKey := N;
  PublicKey := N;
  PrivateKey_Public := fun _ => dyn_other;
  crypto_GenerateKey := sim_GenerateKey;
  crypto_FromECDSA := sim_FromECDSA;
  crypto_ToECDSA := sim_ToECDSA_lax;
  crypto_FromECDSAPub := sim_FromECDSAPub;
  crypto_Sign := sim_Sign_loud;
  crypto_verifies := sim_verifies;
  Transaction := SimTransaction;
  Signer := option N;
  Signer_Hash := sim_Hash;
  Transaction_WithSignature := sim_WithSignature
|}.

Definition short_digest : GoBytes := Some [x01; x02].

(* ===================================================================== *)
(** * Running a sequence of calls *)
(* ===================================================================== *)

Lemma bind_Returned {W A B} (c : go W A) (k : A -> go W B) w a w' :
  c w = (Returned a, w') -> bind c k w = k a w'.
Proof. intros Hc. unfold bind. now rewrite Hc. Qed.

Lemma Hash_slice_len (h : Hash) : len (Hash_slice h) = 32.
Proof. exact (Hash_length h). Qed.

(* ===================================================================== *)
(** * The default keeper *)
(* ===================================================================== *)

Section DefaultKeeper.
Context {E : External}.

(** What [GeneratePrivateKey] hands out on success is the serialisation of
    the key the provider generated. *)
Lemma GeneratePrivateKey_success w id w' :
  defaultPrivateKeyKeeper_GeneratePrivateKey w = (Returned (id, None), w') ->
  exists p, crypto_GenerateKey w = (Returned (p, None), w') /\
            id = crypto_FromECDSA p.
Proof.
  unfold defaultPrivateKeyKeeper_GeneratePrivateKey, bind.
  destruct (crypto_GenerateKey w) as [[[p err]|] w1]; [|discriminate].
  destruct err as [e|]; unfold ret; intros H; inversion H; subst.
  exists p. split; reflexivity.
Qed.

(** With a key that parses and whose public half is an ECDSA key,
    [GetPublicKey] returns that half serialised and touches nothing. *)
Lemma GetPublicKey_parsed prvID k pub w :
  crypto_ToECDSA prvID = (Some k, None) ->
  PrivateKey_Public k = dyn_ecdsa_PublicKey pub ->
  defaultPrivateKeyKeeper_GetPublicKey prvID w =
  (Returned (crypto_FromECDSAPub (Some pub), None), w).
Proof.
  intros Hparse Hpub. unfold defaultPrivateKeyKeeper_GetPublicKey.
  rewrite Hparse. cbn [Public]. unfold bind, ret. now rewrite Hpub.
Qed.

(** With a key that parses, [Sign] is the provider's [crypto.Sign] on it,
    with the result dropped when an error comes with it. *)
Lemma Sign_parsed data prvID k w :
  crypto_ToECDSA prvID = (Some k, None) ->
  defaultPrivateKeyKeeper_Sign data prvID w =
  match crypto_Sign data (Some k) w with
  | (Returned (sig, None), w') => (Returned (sig, None), w')
  | (Returned (_, Some e), w') => (Returned (None, Some e), w')
  | (Panicked, w') => (Panicked, w')
  end.
Proof.
  intros Hparse. unfold defaultPrivateKeyKeeper_Sign. rewrite Hparse.
  unfold bind, ret.
  destruct (crypto_Sign data (Some k) w) as [[[sig [e|]]|] w']; reflexivity.
Qed.

(** C3. An identifier that [crypto.ToECDSA] does not parse makes both
    [GetPublicKey] and [Sign] of the default keeper return a nil result with
    the parse error (the invalid-key-identifier failure), in every world and
    for every data: neither panics, neither returns a result without an
    error, and neither reaches another collaborator. *)
Theorem unparseable_identifier_is_rejected prvID data p e w :
  crypto_ToECDSA prvID = (p, Some e) ->
  defaultPrivateKeyKeeper_GetPublicKey prvID w = (Returned (None, Some e), w) /\
  defaultPrivateKeyKeeper_Sign data prvID w = (Returned (None, Some e), w).
Proof.
  intros Hparse.
  unfold defaultPrivateKeyKeeper_GetPublicKey, defaultPrivateKeyKeeper_Sign.
  rewrite Hparse. split; reflexivity.
Qed.

(** C8. [GetPublicKey] of the default keeper is a function of the
    identifier alone: for every identifier there is one outcome that every
    call returns, whatever the world, and the call leaves the world as it
    found it; so any two calls on the same identifier return the same
    public-key bytes. *)
Theorem GetPublicKey_deterministic prvID :
  exists r, forall w, defaultPrivateKeyKeeper_GetPublicKey prvID w = (r, w).
Proof.
  unfold defaultPrivateKeyKeeper_GetPublicKey.
  destruct (crypto_ToECDSA prvID) as [privateKey [e|]].
  - eexists. intros w. reflexivity.
  - destruct privateKey as [k|]; cbn [Public].
    + destruct (PrivateKey_Public k) as [pub|].
      * eexists. intros w. reflexivity.
      * eexists. intros w. reflexivity.
    + eexists. intros w. reflexivity.
Qed.

Context {L : ExternalLaws E}.

(** C4. An identifier returned by a successful [GeneratePrivateKey] passes
    the parsing step of the other two operations: [crypto.ToECDSA] accepts
    it, [GetPublicKey] returns the serialised public key with no error, and
    [Sign] is [crypto.Sign] run on the parsed key, so whatever error [Sign]
    reports is the provider's signing error, not a parse error. *)
Theorem generated_identifier_is_accepted w id w' :
  defaultPrivateKeyKeeper_GeneratePrivateKey w = (Returned (id, None), w') ->
  exists k pub,
    crypto_ToECDSA id = (Some k, None) /\
    (forall w1, defaultPrivateKeyKeeper_GetPublicKey id w1 =
                (Returned (crypto_FromECDSAPub (Some pub), None), w1)) /\
    (forall data w1, defaultPrivateKeyKeeper_Sign data id w1 =
                     match crypto_Sign data (Some k) w1 with
                     | (Returned (sig, None), w2) => (Returned (sig, None), w2)
                     | (Returned (_, Some e), w2) => (Returned (None, Some e), w2)
                     | (Panicked, w2) => (Panicked, w2)
                     end).
Proof.
  intros Hgen.
  destruct (GeneratePrivateKey_success _ Hgen) as [p [Hp ->]].
  destruct (GenerateKey_reparses _ Hp) as [k [-> Hparse]].
  destruct (Public_is_ecdsa k) as [pub Hpub].
  exists k, pub. split; [exact Hparse|]. split.
  - intros w1. now apply GetPublicKey_parsed with (k := k).
  - intros data w1. now apply Sign_parsed.
Qed.

(** C1. Sign, then verify.  For an identifier from a successful
    [GeneratePrivateKey], a signature from a successful [Sign] of any data
    with it verifies against the public key that a successful [GetPublicKey]
    returns for it and against that data. *)
Theorem sign_then_verify w id w' data w1 sig w1' w2 pub w2' :
  defaultPrivateKeyKeeper_GeneratePrivateKey w = (Returned (id, None), w') ->
  defaultPrivateKeyKeeper_Sign data id w1 = (Returned (sig, None), w1') ->
  defaultPrivateKeyKeeper_GetPublicKey id w2 = (Returned (pub, None), w2') ->
  crypto_verifies pub data sig = true.
Proof.
  intros Hgen Hsign Hget.
  destruct (GeneratePrivateKey_success _ Hgen) as [p [Hp ->]].
  destruct (GenerateKey_reparses _ Hp) as [k [-> Hparse]].
  destruct (Public_is_ecdsa k) as [Q HQ].
  rewrite (GetPublicKey_parsed _ w2 Hparse HQ) in Hget.
  inversion Hget; subst pub.
  rewrite (Sign_parsed data _ w1 Hparse) in Hsign.
  destruct (crypto_Sign data (Some k) w1) as [[[sig' [e|]]|] w3] eqn:Hs;
    try discriminate.
  inversion Hsign; subst.
  exact (Sign_verifies _ _ _ HQ Hs).
Qed.

End DefaultKeeper.

(* ===================================================================== *)
(** * The signers *)
(* ===================================================================== *)

Section Signers.
Context {E : External}.

(** With a keeper in place, [SecureSign.Sign] leaves the receiver alone and
    runs what [secureSigner.Sign] runs. *)
Lemma SecureSign_Sign_with_keeper a k tx s prvID :
  SecureSign_keeper a = Some k ->
  SecureSign_Sign a tx s prvID =
  (a, secureSigner_Sign (NewSecureSigner (Some k)) tx s prvID).
Proof.
  intros Hk. unfold SecureSign_Sign, secureSigner_Sign, NewSecureSigner.
  rewrite Hk. cbn [secureSigner_keeper]. rewrite Hk. reflexivity.
Qed.

(** Without one, it installs [defaultKeeper] and runs what the signer from
    [DefaultSecureSigner] runs. *)
Lemma SecureSign_Sign_without_keeper a tx s prvID :
  SecureSign_keeper a = None ->
  SecureSign_Sign a tx s prvID =
  ({| SecureSign_keeper := defaultKeeper |},
   secureSigner_Sign DefaultSecureSigner tx s prvID).
Proof.
  intros Hk. unfold SecureSign_Sign. rewrite Hk. reflexivity.
Qed.

Lemma SecureSign_Sign_keeper a tx s prvID :
  SecureSign_keeper (fst (SecureSign_Sign a tx s prvID)) =
  match SecureSign_keeper a with
  | None => defaultKeeper
  | Some k => Some k
  end.
Proof.
  destruct (SecureSign_keeper a) as [k|] eqn:Hk.
  - rewrite (SecureSign_Sign_with_keeper a tx s prvID Hk). exact Hk.
  - rewrite (SecureSign_Sign_without_keeper a tx s prvID Hk). reflexivity.
Qed.

Lemma after_calls_with_keeper calls : forall a k,
  SecureSign_keeper a = Some k -> after_calls a calls = a.
Proof.
  induction calls as [|[[tx s] prvID] calls IH]; intros a k Hk.
  - reflexivity.
  - unfold after_calls. cbn [fold_left].
    rewrite (SecureSign_Sign_with_keeper a tx s prvID Hk). cbn [fst].
    exact (IH a k Hk).
Qed.

(** On the nil keeper every method of [secureSigner] ends in a panic; [Sign]
    has hashed the transaction by then. *)
Lemma secureSigner_nil_keeper sec :
  secureSigner_keeper sec = None ->
  (forall w, secureSigner_GenerateKey sec w = (Panicked, w)) /\
  (forall prvID w, secureSigner_GetPublicKey sec prvID w = (Panicked, w)) /\
  (forall tx s prvID w,
     secureSigner_Sign sec tx s prvID w = (Panicked, snd (Signer_Hash s tx w))).
Proof.
  intros Hk.
  unfold secureSigner_GenerateKey, secureSigner_GetPublicKey, secureSigner_Sign.
  rewrite Hk. repeat split; intros; try reflexivity.
  unfold bind. destruct (Signer_Hash s tx w) as [[h|] w1]; reflexivity.
Qed.

(** C2. [secureSigner.Sign] hashes the transaction with the given hasher,
    hands exactly the 32 bytes of that hash and the key identifier to the
    keeper's [Sign], in the world the hasher left, and when the keeper
    reports no error it is [tx.WithSignature(s, sig)] run on the signature
    the keeper returned, in the world the keeper left. *)
Theorem secureSigner_Sign_hashes_signs_reassembles
    sec k tx s keyID w h w1 sig w2 :
  secureSigner_keeper sec = Some k ->
  Signer_Hash s tx w = (Returned h, w1) ->
  Sign k (Hash_slice h) keyID w1 = (Returned (sig, None), w2) ->
  len (Hash_slice h) = 32 /\
  secureSigner_Sign sec tx s keyID w = Transaction_WithSignature tx s sig w2.
Proof.
  intros Hk Hh Hs. split; [apply Hash_slice_len|].
  unfold secureSigner_Sign. rewrite Hk.
  rewrite (bind_Returned _ _ _ Hh). cbn [invoke].
  rewrite (bind_Returned _ _ _ Hs). reflexivity.
Qed.

(** C7. An error the keeper reports reaches the caller of the signer as
    the same value, next to a nil result, and the world is the one the
    keeper left: no second call, no other collaborator.  This holds for
    [GenerateKey], [GetPublicKey] and [Sign]; the hasher's [Hash] has no error
    to report, and what [WithSignature] returns, error included, is returned
    as it is. *)
Theorem secureSigner_surfaces_errors sec k :
  secureSigner_keeper sec = Some k ->
  (forall w x e w',
     GeneratePrivateKey k w = (Returned (x, Some e), w') ->
     secureSigner_GenerateKey sec w = (Returned (None, Some e), w')) /\
  (forall prvID w x e w',
     GetPublicKey k prvID w = (Returned (x, Some e), w') ->
     secureSigner_GetPublicKey sec prvID w = (Returned (None, Some e), w')) /\
  (forall tx s prvID w h w1 x e w2,
     Signer_Hash s tx w = (Returned h, w1) ->
     Sign k (Hash_slice h) prvID w1 = (Returned (x, Some e), w2) ->
     secureSigner_Sign sec tx s prvID w = (Returned (None, Some e), w2)) /\
  (forall tx s prvID w h w1 sig w2 r e w3,
     Signer_Hash s tx w = (Returned h, w1) ->
     Sign k (Hash_slice h) prvID w1 = (Returned (sig, None), w2) ->
     Transaction_WithSignature tx s sig w2 = (Returned (r, Some e), w3) ->
     secureSigner_Sign sec tx s prvID w = (Returned (r, Some e), w3)).
Proof.
  intros Hk.
  unfold secureSigner_GenerateKey, secureSigner_GetPublicKey, secureSigner_Sign.
  rewrite Hk. cbn [invoke]. repeat split.
  - intros w x e w' Hg. now rewrite (bind_Returned _ _ _ Hg).
  - intros prvID w x e w' Hg. now rewrite (bind_Returned _ _ _ Hg).
  - intros tx s prvID w h w1 x e w2 Hh Hs.
    rewrite (bind_Returned _ _ _ Hh). now rewrite (bind_Returned _ _ _ Hs).
  - intros tx s prvID w h w1 sig w2 r e w3 Hh Hs Hw.
    rewrite (bind_Returned _ _ _ Hh). now rewrite (bind_Returned _ _ _ Hs).
Qed.

(** C6, amended. Built over the same keeper [k], one that is not nil, the
    two [Sign] methods are the same computation: for every transaction,
    hasher and key identifier they give the same outcome (signed transaction
    and error) and leave the same world, and [SecureSign.Sign] leaves its
    receiver as it was. *)
Theorem Sign_designs_agree_on_a_keeper (k : PrivateKeyKeeper) tx s prvID w :
  let sec := {| secureSigner_keeper := Some k |} in
  let a := {| SecureSign_keeper := Some k |} in
  snd (SecureSign_Sign a tx s prvID) w = secureSigner_Sign sec tx s prvID w /\
  fst (SecureSign_Sign a tx s prvID) = a.
Proof.
  intros sec a.
  assert (Hk : SecureSign_keeper a = Some k) by reflexivity.
  rewrite (SecureSign_Sign_with_keeper a tx s prvID Hk).
  split; reflexivity.
Qed.

(** C9. [SecureSign.Sign] writes its receiver on the fallback path: after
    a call the keeper field is not nil, it is the keeper that was there or,
    if none was, [defaultKeeper]; every later [Sign], however many, runs on
    that keeper and leaves the receiver as it is; [SetKeeper] replaces it. *)
Theorem SecureSign_Sign_installs_keeper a tx s prvID :
  let a' := fst (SecureSign_Sign a tx s prvID) in
  SecureSign_keeper a' <> None /\
  SecureSign_keeper a' =
    match SecureSign_keeper a with None => defaultKeeper | Some k => Some k end /\
  (exists k, SecureSign_keeper a' = Some k /\
     forall calls tx2 s2 prvID2,
       SecureSign_Sign (after_calls a' calls) tx2 s2 prvID2 =
       (a', secureSigner_Sign (NewSecureSigner (Some k)) tx2 s2 prvID2)) /\
  (forall keeper, SecureSign_keeper (SecureSign_SetKeeper a' keeper) = keeper).
Proof.
  intros a'.
  assert (Hk : SecureSign_keeper a' =
    match SecureSign_keeper a with None => defaultKeeper | Some k => Some k end)
    by apply SecureSign_Sign_keeper.
  assert (Hsome : exists k, SecureSign_keeper a' = Some k).
  { rewrite Hk. destruct (SecureSign_keeper a) as [k|]; eexists; reflexivity. }
  destruct Hsome as [k Hsome].
  split; [congruence|]. split; [exact Hk|]. split.
  - exists k. split; [exact Hsome|]. intros calls tx2 s2 prvID2.
    rewrite (after_calls_with_keeper calls a' Hsome).
    now apply SecureSign_Sign_with_keeper.
  - reflexivity.
Qed.

(** C10. A signer from [NewSecureSigner(nil)] has no fallback: it holds the
    nil keeper, [GenerateKey] and [GetPublicKey] panic at once in the world as
    it is, and [Sign] panics after hashing the transaction, without reaching
    any keeper.  The default keeper comes in only through
    [DefaultSecureSigner], which holds it from construction, and through
    [SecureSign.Sign], which installs it when the field is nil. *)
Theorem NewSecureSigner_nil_has_no_fallback :
  secureSigner_keeper (NewSecureSigner None) = None /\
  (forall w, secureSigner_GenerateKey (NewSecureSigner None) w = (Panicked, w)) /\
  (forall prvID w,
     secureSigner_GetPublicKey (NewSecureSigner None) prvID w = (Panicked, w)) /\
  (forall tx s prvID w,
     secureSigner_Sign (NewSecureSigner None) tx s prvID w =
     (Panicked, snd (Signer_Hash s tx w))) /\
  secureSigner_keeper DefaultSecureSigner = Some defaultPrivateKeyKeeper /\
  (forall tx s prvID,
     SecureSign_keeper
       (fst (SecureSign_Sign {| SecureSign_keeper := None |} tx s prvID)) =
     Some defaultPrivateKeyKeeper).
Proof.
  split; [reflexivity|].
  destruct (@secureSigner_nil_keeper (NewSecureSigner None) eq_refl) as [Hg [Hp Hs]].
  repeat split; auto.
Qed.

(** C5, amended. How a signer comes by its keeper.  [NewSecureSigner]
    stores the keeper it is given, nil included, and [DefaultSecureSigner]
    stores [defaultKeeper] at construction.  The [secureSigner] methods use
    the stored keeper as it is, with no fallback.  When there is none,
    [GenerateKey] and [GetPublicKey] panic at once and [Sign] panics after
    hashing.  When there is one, each method is a call of that keeper's
    method: [GenerateKey] and [GetPublicKey] return its result (nil beside an
    error), [Sign] hands it the hash and the identifier and returns its error
    or [tx.WithSignature] of its signature.  The lazy fallback is
    [SecureSign.Sign] alone: with a keeper set it leaves the receiver alone
    and signs as a [secureSigner] over that keeper, with none it assigns
    [defaultKeeper] to the receiver and signs as the signer from
    [DefaultSecureSigner]. *)
Theorem signer_keeper_by_construction :
  (forall keeper, secureSigner_keeper (NewSecureSigner keeper) = keeper) /\
  secureSigner_keeper DefaultSecureSigner = defaultKeeper /\
  (forall sec, secureSigner_keeper sec = None ->
     (forall w, secureSigner_GenerateKey sec w = (Panicked, w)) /\
     (forall prvID w, secureSigner_GetPublicKey sec prvID w = (Panicked, w)) /\
     (forall tx s prvID w,
        secureSigner_Sign sec tx s prvID w = (Panicked, snd (Signer_Hash s tx w)))) /\
  (forall sec k, secureSigner_keeper sec = Some k ->
     (forall w,
        secureSigner_GenerateKey sec w =
        match GeneratePrivateKey k w with
        | (Returned (prvID, None), w') => (Returned (prvID, None), w')
        | (Returned (_, Some e), w') => (Returned (None, Some e), w')
        | (Panicked, w') => (Panicked, w')
        end) /\
     (forall prvID w,
        secureSigner_GetPublicKey sec prvID w =
        match GetPublicKey k prvID w with
        | (Returned (pbl, None), w') => (Returned (pbl, None), w')
        | (Returned (_, Some e), w') => (Returned (None, Some e), w')
        | (Panicked, w') => (Panicked, w')
        end) /\
     (forall tx s prvID w,
        secureSigner_Sign sec tx s prvID w =
        match Signer_Hash s tx w with
        | (Returned h, w1) =>
            match Sign k (Hash_slice h) prvID w1 with
            | (Returned (sig, None), w2) => Transaction_WithSignature tx s sig w2
            | (Returned (_, Some e), w2) => (Returned (None, Some e), w2)
            | (Panicked, w2) => (Panicked, w2)
            end
        | (Panicked, w1) => (Panicked, w1)
        end)) /\
  (forall a k tx s prvID, SecureSign_keeper a = Some k ->
     SecureSign_Sign a tx s prvID =
     (a, secureSigner_Sign (NewSecureSigner (Some k)) tx s prvID)) /\
  (forall a tx s prvID, SecureSign_keeper a = None ->
     SecureSign_Sign a tx s prvID =
     ({| SecureSign_keeper := defaultKeeper |},
      secureSigner_Sign DefaultSecureSigner tx s prvID)).
Proof.
  split; [reflexivity|]. split; [reflexivity|]. split.
  { intros sec Hk. exact (secureSigner_nil_keeper sec Hk). }
  split.
  { intros sec k Hk.
    unfold secureSigner_GenerateKey, secureSigner_GetPublicKey, secureSigner_Sign.
    rewrite Hk. cbn [invoke]. unfold bind, ret. split; [|split].
    - intros w.
      destruct (GeneratePrivateKey k w) as [[[x [e|]]|] w']; reflexivity.
    - intros prvID w.
      destruct (GetPublicKey k prvID w) as [[[x [e|]]|] w']; reflexivity.
    - intros tx s prvID w.
      destruct (Signer_Hash s tx w) as [[h|] w1]; [|reflexivity].
      destruct (Sign k (Hash_slice h) prvID w1) as [[[sig [e|]]|] w2]; reflexivity. }
  split.
  - intros. now apply SecureSign_Sign_with_keeper.
  - intros. now apply SecureSign_Sign_without_keeper.
Qed.

End Signers.

(* ===================================================================== *)
(** * The small provider meets the laws *)
(* ===================================================================== *)

Lemma byte_of_N_to_N n : Byte.to_N (byte_of_N n) = (n mod 256)%N.
Proof.
  unfold byte_of_N.
  destruct (Byte.of_N (n mod 256)) as [b|] eqn:Hb.
  - now apply Byte.to_of_N.
  - apply Byte.of_N_None_iff in Hb.
    pose proof (N.mod_upper_bound n 256). lia.
Qed.

Lemma le_bytes_length count : forall n, List.length (le_bytes count n) = count.
Proof.
  induction count as [|c IH]; intros n; cbn [le_bytes List.length].
  - reflexivity.
  - now rewrite IH.
Qed.

Lemma PaddedBigBytes_length n count : List.length (PaddedBigBytes n count) = count.
Proof. unfold PaddedBigBytes. now rewrite length_rev, le_bytes_length. Qed.

Lemma le_bytes_value count : forall n,
  fold_right (fun b acc => acc * 256 + Byte.to_N b)%N 0%N (le_bytes count n) =
  (n mod 256 ^ N.of_nat count)%N.
Proof.
  induction count as [|c IH]; intros n.
  - cbn. now rewrite N.mod_1_r.
  - cbn [le_bytes fold_right]. rewrite IH, byte_of_N_to_N.
    rewrite Nat2N.inj_succ, N.pow_succ_r'.
    rewrite (N.Div0.mod_mul_r n 256 (256 ^ N.of_nat c)). lia.
Qed.

Lemma SetBytes_PaddedBigBytes n count :
  SetBytes (PaddedBigBytes n count) = (n mod 256 ^ N.of_nat count)%N.
Proof.
  unfold SetBytes, PaddedBigBytes.
  rewrite <- (le_bytes_value count n).
  pose proof (fold_left_rev_right (fun b acc => acc * 256 + Byte.to_N b)%N
                (rev (le_bytes count n)) 0%N) as Hfold.
  cbv beta in Hfold. rewrite rev_involutive in Hfold. now rewrite Hfold.
Qed.

Lemma secp256k1_N_fits : (secp256k1_N < 256 ^ N.of_nat 32)%N.
Proof. vm_compute. reflexivity. Qed.

(** [ToECDSA] undoes [FromECDSA] on every scalar of the key range. *)
Lemma sim_ToECDSA_FromECDSA D :
  (0 < D < secp256k1_N)%N ->
  sim_ToECDSA (sim_FromECDSA (Some D)) = (Some D, None).
Proof.
  intros [Hpos Hlt]. unfold sim_ToECDSA, sim_FromECDSA, len.
  rewrite PaddedBigBytes_length, SetBytes_PaddedBigBytes.
  pose proof secp256k1_N_fits as Hfit.
  rewrite N.mod_small by lia.
  change (negb (Nat.eqb (8 * 32) 256)) with false. cbv iota.
  destruct (N.leb_spec secp256k1_N D) as [Hle|_]; [lia|].
  destruct (N.eqb_spec D 0) as [H0|_]; [lia|]. reflexivity.
Qed.

Lemma bytes_eqb_refl l : bytes_eqb l l = true.
Proof. unfold bytes_eqb. now destruct (list_eq_dec byte_eq_dec l l). Qed.

Lemma sim_laws : ExternalLaws sim.
Proof.
  constructor.
  - intros w p w' Hgen.
    change (sim_GenerateKey w = (Returned (p, None), w')) in Hgen.
    unfold sim_GenerateKey in Hgen.
    destruct (entropy w) as [|r rest]; [discriminate|].
    injection Hgen as Hp Hw. subst p w'.
    exists (1 + r mod (secp256k1_N - 1))%N. split; [reflexivity|].
    assert (Hn : (1 < secp256k1_N)%N) by (vm_compute; reflexivity).
    assert (Hm : (r mod (secp256k1_N - 1) < secp256k1_N - 1)%N)
      by (apply N.mod_upper_bound; lia).
    assert (Hrange : (0 < 1 + r mod (secp256k1_N - 1) < secp256k1_N)%N).
    { revert Hm. generalize (r mod (secp256k1_N - 1))%N. intros m Hm. lia. }
    exact (sim_ToECDSA_FromECDSA Hrange).
  - intros k. eexists. reflexivity.
  - intros k pub data w sig w' Hpub Hsign. cbn in Hpub, Hsign |- *.
    inversion Hpub; subst pub. unfold sim_Sign in Hsign.
    destruct data as [digest|]; [|discriminate].
    destruct (Nat.eqb (List.length digest) 32); inversion Hsign; subst.
    unfold sim_verifies, sim_FromECDSAPub, sim_tag. apply bytes_eqb_refl.
Qed.

(* ===================================================================== *)
(** * Runs *)
(* ===================================================================== *)

(** Generate on [w0], sign the digest [h1], derive the public key: the
    signature verifies. *)
Lemma sign_then_verify_witness :
  defaultPrivateKeyKeeper_GeneratePrivateKey w0 = (Returned (key42, None), w_generated) /\
  defaultPrivateKeyKeeper_Sign (Hash_slice h1) key42 w0 =
    (Returned (Some sig1, None), log (call_Sign (Hash_bytes h1) 42) w0) /\
  defaultPrivateKeyKeeper_GetPublicKey key42 w0 = (Returned (pub42, None), w0) /\
  crypto_verifies pub42 (Hash_slice h1) (Some sig1) = true.
Proof.
  assert (Hgen : defaultPrivateKeyKeeper_GeneratePrivateKey w0 =
                 (Returned (key42, None), w_generated)) by (vm_compute; reflexivity).
  assert (Hsign : defaultPrivateKeyKeeper_Sign (Hash_slice h1) key42 w0 =
                  (Returned (Some sig1, None), log (call_Sign (Hash_bytes h1) 42) w0))
    by (vm_compute; reflexivity).
  assert (Hget : defaultPrivateKeyKeeper_GetPublicKey key42 w0 =
                 (Returned (pub42, None), w0)) by (vm_compute; reflexivity).
  split; [exact Hgen|]. split; [exact Hsign|]. split; [exact Hget|].
  exact (@sign_then_verify sim sim_laws _ _ _ _ _ _ _ _ _ _ Hgen Hsign Hget).
Defined.

(** The default signer on [tx1]: hash, sign with [key42], attach; the journal
    shows one call of each, in that order. *)
Lemma secureSigner_Sign_hashes_signs_reassembles_witness :
  Signer_Hash chain1 tx1 w0 = (Returned h1, w_hashed) /\
  Sign defaultPrivateKeyKeeper (Hash_slice h1) key42 w_hashed =
    (Returned (Some sig1, None), w_signed) /\
  secureSigner_Sign DefaultSecureSigner tx1 chain1 key42 w0 =
    Transaction_WithSignature tx1 chain1 (Some sig1) w_signed /\
  secureSigner_Sign DefaultSecureSigner tx1 chain1 key42 w0 =
    (Returned (Some signed_tx1, None), w_done).
Proof.
  assert (Hh : Signer_Hash chain1 tx1 w0 = (Returned h1, w_hashed)) by reflexivity.
  assert (Hs : Sign defaultPrivateKeyKeeper (Hash_slice h1) key42 w_hashed =
               (Returned (Some sig1, None), w_signed)) by (vm_compute; reflexivity).
  destruct (@secureSigner_Sign_hashes_signs_reassembles sim DefaultSecureSigner
              defaultPrivateKeyKeeper tx1 chain1 key42 w0 h1 w_hashed (Some sig1)
              w_signed eq_refl Hh Hs) as [_ Hrun].
  split; [exact Hh|]. split; [exact Hs|]. split; [exact Hrun|].
  rewrite Hrun. vm_compute. reflexivity.
Defined.

(** Ten bytes are not a key. *)
Lemma unparseable_identifier_is_rejected_witness :
  len ten_bytes = 10 /\
  crypto_ToECDSA ten_bytes = (None, Some "invalid length, need 256 bits"%string) /\
  defaultPrivateKeyKeeper_GetPublicKey ten_bytes w0 =
    (Returned (None, Some "invalid length, need 256 bits"%string), w0) /\
  defaultPrivateKeyKeeper_Sign (Hash_slice h1) ten_bytes w0 =
    (Returned (None, Some "invalid length, need 256 bits"%string), w0).
Proof.
  split; [reflexivity|]. split; [reflexivity|].
  apply (@unparseable_identifier_is_rejected sim ten_bytes (Hash_slice h1) None
           "invalid length, need 256 bits"%string w0).
  reflexivity.
Defined.

(** The identifier generated on [w0] is accepted. *)
Lemma generated_identifier_is_accepted_witness :
  defaultPrivateKeyKeeper_GeneratePrivateKey w0 = (Returned (key42, None), w_generated) /\
  exists k pub,
    crypto_ToECDSA key42 = (Some k, None) /\
    (forall w1, defaultPrivateKeyKeeper_GetPublicKey key42 w1 =
                (Returned (crypto_FromECDSAPub (Some pub), None), w1)) /\
    (forall data w1, defaultPrivateKeyKeeper_Sign data key42 w1 =
                     match crypto_Sign data (Some k) w1 with
                     | (Returned (sig, None), w2) => (Returned (sig, None), w2)
                     | (Returned (_, Some e), w2) => (Returned (None, Some e), w2)
                     | (Panicked, w2) => (Panicked, w2)
                     end).
Proof.
  assert (Hgen : defaultPrivateKeyKeeper_GeneratePrivateKey w0 =
                 (Returned (key42, None), w_generated)) by (vm_compute; reflexivity).
  split; [exact Hgen|].
  exact (@generated_identifier_is_accepted sim sim_laws w0 key42 w_generated Hgen).
Defined.

(** Errors of each stage, as the caller of the signer sees them: no entropy,
    a ten-byte identifier, a signature of the wrong size. *)
Lemma secureSigner_surfaces_errors_witness :
  secureSigner_GenerateKey DefaultSecureSigner w_dry =
    (Returned (None, Some "entropy exhausted"%string), w_dry) /\
  secureSigner_GetPublicKey DefaultSecureSigner ten_bytes w0 =
    (Returned (None, Some "invalid length, need 256 bits"%string), w0) /\
  secureSigner_Sign DefaultSecureSigner tx1 chain1 ten_bytes w0 =
    (Returned (None, Some "invalid length, need 256 bits"%string), w_hashed) /\
  secureSigner_Sign (NewSecureSigner (Some shortKeeper)) tx1 chain1 key42 w0 =
    (Returned (None, Some "wrong size for signature"%string), w_hashed).
Proof.
  destruct (@secureSigner_surfaces_errors sim DefaultSecureSigner
              defaultPrivateKeyKeeper eq_refl) as [Hgen [Hpub [Hsign _]]].
  destruct (@secureSigner_surfaces_errors sim (NewSecureSigner (Some shortKeeper))
              shortKeeper eq_refl) as [_ [_ [_ Hattach]]].
  split; [|split; [|split]].
  - apply (Hgen w_dry None). reflexivity.
  - apply (Hpub ten_bytes w0 None). reflexivity.
  - apply (Hsign tx1 chain1 ten_bytes w0 h1 w_hashed None); reflexivity.
  - apply (Hattach tx1 chain1 key42 w0 h1 w_hashed (Some [x00]) w_hashed None);
      reflexivity.
Defined.

(** The construction paths on concrete signers: no keeper, the default
    keeper, a keeper that was set, and the lazy fallback. *)
Lemma signer_keeper_by_construction_witness :
  secureSigner_GenerateKey (NewSecureSigner None) w0 = (Panicked, w0) /\
  secureSigner_GetPublicKey (NewSecureSigner None) key42 w0 = (Panicked, w0) /\
  secureSigner_Sign (NewSecureSigner None) tx1 chain1 key42 w0 = (Panicked, w_hashed) /\
  secureSigner_GenerateKey DefaultSecureSigner w0 =
    (Returned (key42, None), w_generated) /\
  secureSigner_GetPublicKey DefaultSecureSigner key42 w0 =
    (Returned (pub42, None), w0) /\
  secureSigner_Sign DefaultSecureSigner tx1 chain1 key42 w0 =
    (Returned (Some signed_tx1, None), w_done) /\
  secureSigner_GenerateKey (NewSecureSigner (Some loudKeeper)) w0 =
    (Returned (None, Some "busy"%string), w0) /\
  SecureSign_Sign {| SecureSign_keeper := Some shortKeeper |} tx1 chain1 key42 =
    ({| SecureSign_keeper := Some shortKeeper |},
     secureSigner_Sign (NewSecureSigner (Some shortKeeper)) tx1 chain1 key42) /\
  SecureSign_Sign {| SecureSign_keeper := None |} tx1 chain1 key42 =
    ({| SecureSign_keeper := defaultKeeper |},
     secureSigner_Sign DefaultSecureSigner tx1 chain1 key42).
Proof.
  destruct (@signer_keeper_by_construction sim) as [_ [_ [Hnil [Hsome [Hset Hunset]]]]].
  destruct (Hnil (NewSecureSigner None) eq_refl) as [Hn1 [Hn2 Hn3]].
  destruct (Hsome DefaultSecureSigner defaultPrivateKeyKeeper eq_refl)
    as [Hd1 [Hd2 Hd3]].
  destruct (Hsome (NewSecureSigner (Some loudKeeper)) loudKeeper eq_refl)
    as [Hl1 _].
  split; [exact (Hn1 w0)|]. split; [exact (Hn2 key42 w0)|].
  split; [rewrite Hn3; reflexivity|].
  split; [rewrite Hd1; vm_compute; reflexivity|].
  split; [rewrite Hd2; vm_compute; reflexivity|].
  split; [rewrite Hd3; vm_compute; reflexivity|].
  split; [rewrite Hl1; reflexivity|].
  split.
  - apply (Hset _ shortKeeper). reflexivity.
  - apply Hunset. reflexivity.
Defined.

(** C5, as stated, fails on [NewSecureSigner(nil)]: the signer holds no
    keeper, and its first operation does not run on [defaultKeeper], it
    panics, where the signer from [DefaultSecureSigner] returns a key.  Nor is
    the default of [DefaultSecureSigner] assigned by a first operation: the
    signer holds it from construction. *)
Lemma NewSecureSigner_nil_neither_explicit_nor_default :
  ~ ((exists k, secureSigner_keeper (NewSecureSigner None) = Some k) \/
     secureSigner_GenerateKey (NewSecureSigner None) w0 =
     secureSigner_GenerateKey DefaultSecureSigner w0) /\
  secureSigner_GenerateKey (NewSecureSigner None) w0 = (Panicked, w0) /\
  secureSigner_GenerateKey DefaultSecureSigner w0 =
    (Returned (key42, None), w_generated) /\
  secureSigner_keeper DefaultSecureSigner = Some defaultPrivateKeyKeeper.
Proof.
  assert (Hnil : secureSigner_GenerateKey (NewSecureSigner None) w0 = (Panicked, w0))
    by reflexivity.
  assert (Hdef : secureSigner_GenerateKey DefaultSecureSigner w0 =
                 (Returned (key42, None), w_generated)) by (vm_compute; reflexivity).
  split; [|split; [exact Hnil|split; [exact Hdef|reflexivity]]].
  intros [[k Hk] | Hsame].
  - discriminate Hk.
  - rewrite Hnil, Hdef in Hsame. discriminate Hsame.
Qed.

(** C6, as stated, fails on the nil keeper, which the field of either
    struct can hold: [secureSigner.Sign] panics after hashing,
    [SecureSign.Sign] signs with [defaultKeeper].  So the two are not equal
    for every value of the keeper field. *)
Lemma Sign_designs_differ_on_nil_keeper :
  secureSigner_Sign {| secureSigner_keeper := None |} tx1 chain1 key42 w0 =
    (Panicked, w_hashed) /\
  snd (SecureSign_Sign {| SecureSign_keeper := None |} tx1 chain1 key42) w0 =
    (Returned (Some signed_tx1, None), w_done) /\
  ~ (forall (keeper : option (@PrivateKeyKeeper sim)) tx s prvID w,
       secureSigner_Sign {| secureSigner_keeper := keeper |} tx s prvID w =
       snd (SecureSign_Sign {| SecureSign_keeper := keeper |} tx s prvID) w).
Proof.
  assert (Hpanic : secureSigner_Sign {| secureSigner_keeper := None |}
                     tx1 chain1 key42 w0 = (Panicked, w_hashed)) by reflexivity.
  assert (Hsigned : snd (SecureSign_Sign {| SecureSign_keeper := None |}
                           tx1 chain1 key42) w0 =
                    (Returned (Some signed_tx1, None), w_done))
    by (vm_compute; reflexivity).
  split; [exact Hpanic|]. split; [exact Hsigned|].
  intros Hsame. specialize (Hsame None tx1 chain1 key42 w0).
  rewrite Hpanic, Hsigned in Hsame. discriminate Hsame.
Qed.

(* ===================================================================== *)
(** * More on the default keeper *)
(* ===================================================================== *)

Section DefaultKeeperPaths.
Context {E : External}.

(** The three methods never hand out a result next to an error. *)
Lemma GeneratePrivateKey_error_has_no_result w r e w' :
  defaultPrivateKeyKeeper_GeneratePrivateKey w = (Returned (r, Some e), w') ->
  r = None.
Proof.
  unfold defaultPrivateKeyKeeper_GeneratePrivateKey, bind, ret.
  destruct (crypto_GenerateKey w) as [[[p [e0|]]|] w1]; intros H;
    inversion H; reflexivity.
Qed.

Lemma GetPublicKey_error_has_no_result prvID w r e w' :
  defaultPrivateKeyKeeper_GetPublicKey prvID w = (Returned (r, Some e), w') ->
  r = None.
Proof.
  unfold defaultPrivateKeyKeeper_GetPublicKey.
  destruct (crypto_ToECDSA prvID) as [[k|] [e0|]]; cbn [Public];
    unfold bind, ret, panic; try (intros H; inversion H; reflexivity).
  destruct (PrivateKey_Public k); intros H; inversion H; reflexivity.
Qed.

Lemma Sign_error_has_no_result data prvID w r e w' :
  defaultPrivateKeyKeeper_Sign data prvID w = (Returned (r, Some e), w') ->
  r = None.
Proof.
  unfold defaultPrivateKeyKeeper_Sign.
  destruct (crypto_ToECDSA prvID) as [p [e0|]]; unfold bind, ret.
  - intros H; inversion H; reflexivity.
  - destruct (crypto_Sign data p w) as [[[sig [e1|]]|] w1]; intros H;
      inversion H; reflexivity.
Qed.

(** X1. Whatever the provider returns, [GeneratePrivateKey], [GetPublicKey]
    and [Sign] of the default keeper never return a result together with an
    error: when the error is not nil the byte slice is nil, also when
    [crypto.GenerateKey] or [crypto.Sign] returned both. *)
Theorem defaultPrivateKeyKeeper_error_means_nil_result :
  (forall w r e w',
     defaultPrivateKeyKeeper_GeneratePrivateKey w = (Returned (r, Some e), w') ->
     r = None) /\
  (forall prvID w r e w',
     defaultPrivateKeyKeeper_GetPublicKey prvID w = (Returned (r, Some e), w') ->
     r = None) /\
  (forall data prvID w r e w',
     defaultPrivateKeyKeeper_Sign data prvID w = (Returned (r, Some e), w') ->
     r = None).
Proof.
  split; [|split].
  - intros w r e w'. apply GeneratePrivateKey_error_has_no_result.
  - intros prvID w r e w'. apply GetPublicKey_error_has_no_result.
  - intros data prvID w r e w'. apply Sign_error_has_no_result.
Qed.

(** X2. Where the default keeper can panic.  [GeneratePrivateKey] panics
    exactly when [crypto.GenerateKey] does; [GetPublicKey] panics exactly when
    [crypto.ToECDSA] returns a nil key with a nil error; [Sign] panics exactly
    when the identifier parses without error and [crypto.Sign] panics on the
    parsed key.  In particular an identifier that [crypto.ToECDSA] rejects
    never makes any of them panic. *)
Theorem defaultPrivateKeyKeeper_panics_only_with_provider data prvID w :
  (fst (defaultPrivateKeyKeeper_GeneratePrivateKey w) = Panicked <->
   fst (crypto_GenerateKey w) = Panicked) /\
  (fst (defaultPrivateKeyKeeper_GetPublicKey prvID w) = Panicked <->
   crypto_ToECDSA prvID = (None, None)) /\
  (fst (defaultPrivateKeyKeeper_Sign data prvID w) = Panicked <->
   exists prv, crypto_ToECDSA prvID = (prv, None) /\
               fst (crypto_Sign data prv w) = Panicked).
Proof.
  split; [|split].
  - unfold defaultPrivateKeyKeeper_GeneratePrivateKey, bind, ret.
    destruct (crypto_GenerateKey w) as [[[p [e|]]|] w1]; cbn [fst];
      split; intros H; try discriminate H; reflexivity.
  - unfold defaultPrivateKeyKeeper_GetPublicKey.
    destruct (crypto_ToECDSA prvID) as [[k|] [e|]]; cbn [Public];
      unfold bind, ret, panic; cbn [fst].
    + split; intros H; discriminate H.
    + destruct (PrivateKey_Public k); cbn [fst]; split; intros H; discriminate H.
    + split; intros H; discriminate H.
    + split; reflexivity.
  - unfold defaultPrivateKeyKeeper_Sign.
    destruct (crypto_ToECDSA prvID) as [p [e|]]; unfold bind, ret.
    + cbn [fst]. split; [intros H; discriminate H|].
      intros [prv [H _]]. discriminate H.
    + destruct (crypto_Sign data p w) as [[[sig [e|]]|] w1] eqn:Hs; cbn [fst].
      * split; [intros H; discriminate H|].
        intros [prv [Hp Hpanic]]. inversion Hp; subst prv.
        rewrite Hs in Hpanic. discriminate Hpanic.
      * split; [intros H; discriminate H|].
        intros [prv [Hp Hpanic]]. inversion Hp; subst prv.
        rewrite Hs in Hpanic. discriminate Hpanic.
      * split; [|reflexivity]. intros _. exists p. split; [reflexivity|].
        now rewrite Hs.
Qed.

(** X3. Errors of the provider come out of the default keeper as they are,
    with a nil result and in the world the provider left:
    [GeneratePrivateKey] returns the error of [crypto.GenerateKey] without
    serialising anything, and [Sign], once the identifier has parsed, returns
    the error of [crypto.Sign] and drops whatever signature came with it. *)
Theorem defaultPrivateKeyKeeper_surfaces_provider_errors :
  (forall w x e w',
     crypto_GenerateKey w = (Returned (x, Some e), w') ->
     defaultPrivateKeyKeeper_GeneratePrivateKey w = (Returned (None, Some e), w')) /\
  (forall data prvID prv w x e w',
     crypto_ToECDSA prvID = (prv, None) ->
     crypto_Sign data prv w = (Returned (x, Some e), w') ->
     defaultPrivateKeyKeeper_Sign data prvID w = (Returned (None, Some e), w')).
Proof.
  split.
  - intros w x e w' Hgen. unfold defaultPrivateKeyKeeper_GeneratePrivateKey.
    now rewrite (bind_Returned _ _ _ Hgen).
  - intros data prvID prv w x e w' Hparse Hsign.
    unfold defaultPrivateKeyKeeper_Sign. rewrite Hparse.
    now rewrite (bind_Returned _ _ _ Hsign).
Qed.

(** X4. When the identifier parses to a key whose [Public()] is not of
    dynamic type [*ecdsa.PublicKey], [GetPublicKey] returns a nil result with
    the error made from "cannot cast public key to ecsda public key", and
    never calls [crypto.FromECDSAPub]; the world is untouched. *)
Theorem GetPublicKey_foreign_public_key prvID k w :
  crypto_ToECDSA prvID = (Some k, None) ->
  PrivateKey_Public k = dyn_other ->
  defaultPrivateKeyKeeper_GetPublicKey prvID w =
  (Returned (None, Some (errors_New "cannot cast public key to ecsda public key")), w).
Proof.
  intros Hparse Hpub. unfold defaultPrivateKeyKeeper_GetPublicKey.
  rewrite Hparse. cbn [Public]. unfold bind, ret. now rewrite Hpub.
Qed.

End DefaultKeeperPaths.

(* ===================================================================== *)
(** * More on the signers *)
(* ===================================================================== *)

Section SignerPaths.
Context {E : External}.

(** A [GenerateKey] or [GetPublicKey] that returned without error ran the
    keeper's method, which returned just that. *)
Lemma secureSigner_GenerateKey_returned sec w r w' :
  secureSigner_GenerateKey sec w = (Returned (r, None), w') ->
  exists k, secureSigner_keeper sec = Some k /\
            GeneratePrivateKey k w = (Returned (r, None), w').
Proof.
  unfold secureSigner_GenerateKey.
  destruct (secureSigner_keeper sec) as [k|]; cbn [invoke]; [|discriminate].
  unfold bind, ret.
  destruct (GeneratePrivateKey k w) as [[[x [e|]]|] w1] eqn:Hrun; intros H;
    inversion H; subst.
  exists k. split; [reflexivity|exact Hrun].
Qed.

Lemma secureSigner_GetPublicKey_returned sec prvID w r w' :
  secureSigner_GetPublicKey sec prvID w = (Returned (r, None), w') ->
  exists k, secureSigner_keeper sec = Some k /\
            GetPublicKey k prvID w = (Returned (r, None), w').
Proof.
  unfold secureSigner_GetPublicKey.
  destruct (secureSigner_keeper sec) as [k|]; cbn [invoke]; [|discriminate].
  unfold bind, ret.
  destruct (GetPublicKey k prvID w) as [[[x [e|]]|] w1] eqn:Hrun; intros H;
    inversion H; subst.
  exists k. split; [reflexivity|exact Hrun].
Qed.

(** A [Sign] that returned hashed, had a keeper, and either got an error from
    it or got a signature and returned what [WithSignature] made of it. *)
Lemma secureSigner_Sign_returned sec tx s prvID w res w' :
  secureSigner_Sign sec tx s prvID w = (Returned res, w') ->
  exists k h w1,
    secureSigner_keeper sec = Some k /\
    Signer_Hash s tx w = (Returned h, w1) /\
    ((exists x e, Sign k (Hash_slice h) prvID w1 = (Returned (x, Some e), w') /\
                  res = (None, Some e)) \/
     (exists sig w2, Sign k (Hash_slice h) prvID w1 = (Returned (sig, None), w2) /\
                     Transaction_WithSignature tx s sig w2 = (Returned res, w'))).
Proof.
  unfold secureSigner_Sign, bind.
  destruct (Signer_Hash s tx w) as [[h|] w1]; [|discriminate].
  destruct (secureSigner_keeper sec) as [k|]; cbn [invoke]; [|discriminate].
  destruct (Sign k (Hash_slice h) prvID w1) as [[[sig [e|]]|] w2] eqn:Hs;
    [| |discriminate]; intros H.
  - unfold ret in H. inversion H; subst.
    exists k, h, w1. split; [reflexivity|]. split; [reflexivity|].
    left. exists sig, e. split; [exact Hs|reflexivity].
  - exists k, h, w1. split; [reflexivity|]. split; [reflexivity|].
    right. exists sig, w2. split; [exact Hs|exact H].
Qed.

(** X5. The signer never returns a result next to an error on its own
    account.  For every keeper, well behaved or not (and for none at all),
    [GenerateKey] and [GetPublicKey] return a nil slice whenever they return
    an error; when [Sign] returns an error, the transaction next to it is
    nil unless [tx.WithSignature] returned that very pair. *)
Theorem secureSigner_error_means_nil_result sec :
  (forall w r e w',
     secureSigner_GenerateKey sec w = (Returned (r, Some e), w') -> r = None) /\
  (forall prvID w r e w',
     secureSigner_GetPublicKey sec prvID w = (Returned (r, Some e), w') ->
     r = None) /\
  (forall tx s prvID w res e w',
     secureSigner_Sign sec tx s prvID w = (Returned (res, Some e), w') ->
     res = None \/
     exists sig w2,
       Transaction_WithSignature tx s sig w2 = (Returned (res, Some e), w')).
Proof.
  split; [|split].
  - intros w r e w'. unfold secureSigner_GenerateKey, bind, ret.
    destruct (invoke (secureSigner_keeper sec) GeneratePrivateKey w)
      as [[[x [e0|]]|] w1]; intros H; inversion H; reflexivity.
  - intros prvID w r e w'. unfold secureSigner_GetPublicKey, bind, ret.
    destruct (invoke (secureSigner_keeper sec) (fun k => GetPublicKey k prvID) w)
      as [[[x [e0|]]|] w1]; intros H; inversion H; reflexivity.
  - intros tx s prvID w res e w' Hrun.
    destruct (secureSigner_Sign_returned _ _ _ _ _ Hrun)
      as [k [h [w1 [_ [_ [[x [e0 [_ Hres]]] | [sig [w2 [_ Hw]]]]]]]]].
    + left. now inversion Hres.
    + right. exists sig, w2. exact Hw.
Qed.

(** X6. Over a keeper that itself returns no result next to an error, the
    signer's [GenerateKey] and [GetPublicKey] are the keeper's
    [GeneratePrivateKey] and [GetPublicKey]: same outcome, panics included,
    and same world, in every world and for every identifier. *)
Theorem secureSigner_is_transparent sec k :
  secureSigner_keeper sec = Some k ->
  (forall w r e w', GeneratePrivateKey k w = (Returned (r, Some e), w') -> r = None) ->
  (forall prvID w r e w',
     GetPublicKey k prvID w = (Returned (r, Some e), w') -> r = None) ->
  (forall w, secureSigner_GenerateKey sec w = GeneratePrivateKey k w) /\
  (forall prvID w, secureSigner_GetPublicKey sec prvID w = GetPublicKey k prvID w).
Proof.
  intros Hk Hgen Hpub. split.
  - intros w. unfold secureSigner_GenerateKey. rewrite Hk. cbn [invoke].
    unfold bind, ret.
    destruct (GeneratePrivateKey k w) as [[[x [e|]]|] w1] eqn:Hrun; try reflexivity.
    now rewrite (Hgen _ _ _ _ Hrun).
  - intros prvID w. unfold secureSigner_GetPublicKey. rewrite Hk. cbn [invoke].
    unfold bind, ret.
    destruct (GetPublicKey k prvID w) as [[[x [e|]]|] w1] eqn:Hrun; try reflexivity.
    now rewrite (Hpub _ _ _ _ _ Hrun).
Qed.

(** X7. A panic cuts the signer short where it happens.  If hashing
    panics, [Sign] panics in the world the hasher left and no keeper is
    reached, whatever keeper is held; if the keeper panics, each method
    panics in the world the keeper left, and [Sign] does not go on to
    [WithSignature]. *)
Theorem secureSigner_panic_cuts_short sec :
  (forall tx s prvID w w1,
     Signer_Hash s tx w = (Panicked, w1) ->
     secureSigner_Sign sec tx s prvID w = (Panicked, w1)) /\
  (forall k, secureSigner_keeper sec = Some k ->
     (forall w w', GeneratePrivateKey k w = (Panicked, w') ->
                   secureSigner_GenerateKey sec w = (Panicked, w')) /\
     (forall prvID w w', GetPublicKey k prvID w = (Panicked, w') ->
                         secureSigner_GetPublicKey sec prvID w = (Panicked, w')) /\
     (forall tx s prvID w h w1 w2,
        Signer_Hash s tx w = (Returned h, w1) ->
        Sign k (Hash_slice h) prvID w1 = (Panicked, w2) ->
        secureSigner_Sign sec tx s prvID w = (Panicked, w2))).
Proof.
  split.
  - intros tx s prvID w w1 Hh. unfold secureSigner_Sign, bind. now rewrite Hh.
  - intros k Hk.
    unfold secureSigner_GenerateKey, secureSigner_GetPublicKey, secureSigner_Sign.
    rewrite Hk. cbn [invoke]. split; [|split].
    + intros w w' Hp. unfold bind. now rewrite Hp.
    + intros prvID w w' Hp. unfold bind. now rewrite Hp.
    + intros tx s prvID w h w1 w2 Hh Hp.
      rewrite (bind_Returned _ _ _ Hh). unfold bind. now rewrite Hp.
Qed.

End SignerPaths.

(* ===================================================================== *)
(** * The default keeper behind the signers *)
(* ===================================================================== *)

Section DefaultSigner.
Context {E : External}.

(** A zero [SecureSign] signs as the signer from [DefaultSecureSigner]. *)
Lemma SecureSign_Sign_signing_keeper a tx s prvID :
  snd (SecureSign_Sign a tx s prvID) =
  secureSigner_Sign (NewSecureSigner (signing_keeper (SecureSign_keeper a))) tx s prvID.
Proof.
  destruct (SecureSign_keeper a) as [k|] eqn:Hk.
  - now rewrite (SecureSign_Sign_with_keeper a tx s prvID Hk).
  - now rewrite (SecureSign_Sign_without_keeper a tx s prvID Hk).
Qed.

(** X8. An identifier that [crypto.ToECDSA] rejects is refused through
    both signers over the default keeper with the parse error and a nil
    result: [GetPublicKey] leaves the world untouched, and [Sign] (of
    [secureSigner] and of a [SecureSign] with no keeper set) stops after
    hashing, before [crypto.Sign] and [WithSignature]. *)
Theorem default_signers_refuse_unparseable prvID p e :
  crypto_ToECDSA prvID = (p, Some e) ->
  (forall w, secureSigner_GetPublicKey DefaultSecureSigner prvID w =
             (Returned (None, Some e), w)) /\
  (forall tx s w h w1,
     Signer_Hash s tx w = (Returned h, w1) ->
     secureSigner_Sign DefaultSecureSigner tx s prvID w =
       (Returned (None, Some e), w1) /\
     snd (SecureSign_Sign {| SecureSign_keeper := None |} tx s prvID) w =
       (Returned (None, Some e), w1)).
Proof.
  intros Hparse. split.
  - intros w. unfold secureSigner_GetPublicKey. cbn [DefaultSecureSigner
      secureSigner_keeper defaultKeeper invoke defaultPrivateKeyKeeper GetPublicKey].
    unfold defaultPrivateKeyKeeper_GetPublicKey. rewrite Hparse. reflexivity.
  - intros tx s w h w1 Hh.
    assert (Hrun : secureSigner_Sign DefaultSecureSigner tx s prvID w =
                   (Returned (None, Some e), w1)).
    { unfold secureSigner_Sign. rewrite (bind_Returned _ _ _ Hh).
      cbn [DefaultSecureSigner secureSigner_keeper defaultKeeper invoke
           defaultPrivateKeyKeeper Sign].
      unfold defaultPrivateKeyKeeper_Sign. rewrite Hparse. reflexivity. }
    split; [exact Hrun|].
    rewrite SecureSign_Sign_signing_keeper. exact Hrun.
Qed.

(** X9. Across any interleaving of [SetKeeper] and [Sign] calls on a
    [SecureSign], the next [Sign] signs with the keeper handed over last (by
    the last [SetKeeper], or in the field at the start) when that is not
    nil, and with [defaultKeeper] otherwise: a [Sign] never displaces a
    keeper that was set, and [SetKeeper(nil)] brings the default back. *)
Theorem SecureSign_signs_with_last_given calls : forall a tx s prvID,
  snd (SecureSign_Sign (SecureSign_history a calls) tx s prvID) =
  secureSigner_Sign
    (NewSecureSigner (signing_keeper (last_given (SecureSign_keeper a) calls)))
    tx s prvID.
Proof.
  assert (Hidem : forall rest given,
            signing_keeper (last_given (signing_keeper given) rest) =
            signing_keeper (last_given given rest)).
  { induction rest as [|[keeper|tx s prvID] rest IH]; intros given; cbn [last_given].
    - now destruct given.
    - reflexivity.
    - apply IH. }
  assert (Hinv : forall a,
            signing_keeper (SecureSign_keeper (SecureSign_history a calls)) =
            signing_keeper (last_given (SecureSign_keeper a) calls)).
  { unfold SecureSign_history.
    induction calls as [|[keeper|tx s prvID] rest IH]; intros a;
      cbn [fold_left last_given SecureSign_after].
    - reflexivity.
    - apply IH.
    - rewrite IH, SecureSign_Sign_keeper. apply Hidem. }
  intros a tx s prvID.
  now rewrite SecureSign_Sign_signing_keeper, Hinv.
Qed.

Context {L : ExternalLaws E}.

(** A signature the default keeper made with a generated identifier
    verifies against the public key the keeper derives from it. *)
Lemma default_keeper_signature_verifies p w w' data w1 sig w1' w2 pub w2' :
  crypto_GenerateKey w = (Returned (p, None), w') ->
  defaultPrivateKeyKeeper_Sign data (crypto_FromECDSA p) w1 =
    (Returned (sig, None), w1') ->
  defaultPrivateKeyKeeper_GetPublicKey (crypto_FromECDSA p) w2 =
    (Returned (pub, None), w2') ->
  crypto_verifies pub data sig = true.
Proof.
  intros Hp Hsign Hget.
  destruct (GenerateKey_reparses _ Hp) as [k [-> Hparse]].
  destruct (Public_is_ecdsa k) as [Q HQ].
  rewrite (GetPublicKey_parsed _ w2 Hparse HQ) in Hget.
  inversion Hget; subst pub.
  rewrite (Sign_parsed data _ w1 Hparse) in Hsign.
  destruct (crypto_Sign data (Some k) w1) as [[[sig' [e|]]|] w3] eqn:Hs;
    try discriminate.
  inversion Hsign; subst.
  exact (Sign_verifies _ _ _ HQ Hs).
Qed.

(** X10. End to end through the signer from [DefaultSecureSigner]: with an
    identifier from a successful [GenerateKey] and the public key from a
    successful [GetPublicKey], whenever [Sign] of a transaction returns
    without error, what it returns is [tx.WithSignature] of a signature that
    verifies against that public key and the hash of the transaction. *)
Theorem DefaultSecureSigner_end_to_end
    w id w' w2 pub w2' tx s w3 h w4 signed w5 :
  secureSigner_GenerateKey DefaultSecureSigner w = (Returned (id, None), w') ->
  secureSigner_GetPublicKey DefaultSecureSigner id w2 = (Returned (pub, None), w2') ->
  Signer_Hash s tx w3 = (Returned h, w4) ->
  secureSigner_Sign DefaultSecureSigner tx s id w3 = (Returned (signed, None), w5) ->
  exists sig w6,
    crypto_verifies pub (Hash_slice h) sig = true /\
    Transaction_WithSignature tx s sig w6 = (Returned (signed, None), w5).
Proof.
  intros Hgen Hget Hh Hrun.
  destruct (secureSigner_GenerateKey_returned _ _ Hgen) as [k1 [Hk1 Hgen']].
  inversion Hk1; subst k1. cbn [defaultPrivateKeyKeeper GeneratePrivateKey] in Hgen'.
  destruct (secureSigner_GetPublicKey_returned _ _ _ Hget) as [k2 [Hk2 Hget']].
  inversion Hk2; subst k2. cbn [defaultPrivateKeyKeeper GetPublicKey] in Hget'.
  destruct (secureSigner_Sign_returned _ _ _ _ _ Hrun)
    as [k3 [h' [w4' [Hk3 [Hh' [[x [e [_ Hres]]] | [sig [w6 [Hs Hw]]]]]]]]].
  { discriminate Hres. }
  inversion Hk3; subst k3. cbn [defaultPrivateKeyKeeper Sign] in Hs.
  rewrite Hh in Hh'. inversion Hh'; subst h' w4'.
  destruct (GeneratePrivateKey_success _ Hgen') as [p [Hp ->]].
  exists sig, w6. split; [|exact Hw].
  exact (default_keeper_signature_verifies _ _ _ _ Hp Hs Hget').
Qed.

(** X11. The same end to end through a [SecureSign] on which no keeper
    was set: its [Sign] installs [defaultKeeper], and a transaction it returns
    without error carries a signature that verifies against the public key
    the default keeper derives from the generated identifier. *)
Theorem SecureSign_zero_value_end_to_end
    w id w' w2 pub w2' tx s w3 h w4 signed w5 :
  defaultPrivateKeyKeeper_GeneratePrivateKey w = (Returned (id, None), w') ->
  defaultPrivateKeyKeeper_GetPublicKey id w2 = (Returned (pub, None), w2') ->
  Signer_Hash s tx w3 = (Returned h, w4) ->
  snd (SecureSign_Sign {| SecureSign_keeper := None |} tx s id) w3 =
    (Returned (signed, None), w5) ->
  SecureSign_keeper (fst (SecureSign_Sign {| SecureSign_keeper := None |} tx s id)) =
    defaultKeeper /\
  exists sig w6,
    crypto_verifies pub (Hash_slice h) sig = true /\
    Transaction_WithSignature tx s sig w6 = (Returned (signed, None), w5).
Proof.
  intros Hgen Hget Hh Hrun. split; [reflexivity|].
  rewrite SecureSign_Sign_signing_keeper in Hrun.
  destruct (secureSigner_Sign_returned _ _ _ _ _ Hrun)
    as [k [h' [w4' [Hk [Hh' [[x [e [_ Hres]]] | [sig [w6 [Hs Hw]]]]]]]]].
  { discriminate Hres. }
  inversion Hk; subst k. cbn [defaultPrivateKeyKeeper Sign] in Hs.
  rewrite Hh in Hh'. inversion Hh'; subst h' w4'.
  destruct (GeneratePrivateKey_success _ Hgen) as [p [Hp ->]].
  exists sig, w6. split; [|exact Hw].
  exact (default_keeper_signature_verifies _ _ _ _ Hp Hs Hget).
Qed.

End DefaultSigner.

(* ===================================================================== *)
(** * More runs *)
(* ===================================================================== *)

(** Over a provider whose [crypto.Sign] returns a signature next to its
    error, the default keeper returns the error alone. *)
Lemma defaultPrivateKeyKeeper_error_means_nil_result_witness :
  @crypto_Sign sim_foreign short_digest (Some 42%N) w0 =
    (Returned (Some [x00], Some "hash is required to be exactly 32 bytes"%string), w0) /\
  exists r,
    @defaultPrivateKeyKeeper_Sign sim_foreign short_digest key42 w0 =
      (Returned (r, Some "hash is required to be exactly 32 bytes"%string), w0) /\
    r = None.
Proof.
  split; [reflexivity|].
  destruct (@defaultPrivateKeyKeeper_error_means_nil_result sim_foreign)
    as [_ [_ Hsign]].
  eexists. split; [vm_compute; reflexivity|].
  apply (Hsign short_digest key42 w0 None
               "hash is required to be exactly 32 bytes"%string w0).
  vm_compute. reflexivity.
Defined.

(** Ten bytes do not make [GetPublicKey] panic; an identifier that parses to
    a nil key with a nil error does. *)
Lemma defaultPrivateKeyKeeper_panics_only_with_provider_witness :
  fst (defaultPrivateKeyKeeper_GetPublicKey ten_bytes w0) <> Panicked /\
  @crypto_ToECDSA sim_foreign (Some []) = (None, None) /\
  fst (@defaultPrivateKeyKeeper_GetPublicKey sim_foreign (Some []) w0) = Panicked.
Proof.
  split; [|split; [reflexivity|]].
  - intros Hpanic.
    destruct (@defaultPrivateKeyKeeper_panics_only_with_provider sim
                None ten_bytes w0) as [_ [Hget _]].
    apply Hget in Hpanic. discriminate Hpanic.
  - destruct (@defaultPrivateKeyKeeper_panics_only_with_provider sim_foreign
                None (Some []) w0) as [_ [Hget _]].
    apply Hget. reflexivity.
Defined.

(** No entropy; a digest of two bytes. *)
Lemma defaultPrivateKeyKeeper_surfaces_provider_errors_witness :
  defaultPrivateKeyKeeper_GeneratePrivateKey w_dry =
    (Returned (None, Some "entropy exhausted"%string), w_dry) /\
  @defaultPrivateKeyKeeper_Sign sim_foreign short_digest key42 w0 =
    (Returned (None, Some "hash is required to be exactly 32 bytes"%string), w0).
Proof.
  split.
  - destruct (@defaultPrivateKeyKeeper_surfaces_provider_errors sim) as [Hgen _].
    apply (Hgen w_dry None). reflexivity.
  - destruct (@defaultPrivateKeyKeeper_surfaces_provider_errors sim_foreign)
      as [_ Hsign].
    apply (Hsign short_digest key42 (Some 42%N) w0 (Some [x00])).
    + vm_compute. reflexivity.
    + reflexivity.
Defined.

(** A key whose public half is of a foreign type. *)
Lemma GetPublicKey_foreign_public_key_witness :
  @crypto_ToECDSA sim_foreign key42 = (Some 42%N, None) /\
  @defaultPrivateKeyKeeper_GetPublicKey sim_foreign key42 w0 =
    (Returned (None, Some "cannot cast public key to ecsda public key"%string), w0).
Proof.
  assert (Hparse : @crypto_ToECDSA sim_foreign key42 = (Some 42%N, None))
    by (vm_compute; reflexivity).
  split; [exact Hparse|].
  exact (@GetPublicKey_foreign_public_key sim_foreign key42 42%N w0 Hparse eq_refl).
Defined.

(** A keeper that returns results next to its errors, and one whose
    signature [WithSignature] refuses. *)
Lemma secureSigner_error_means_nil_result_witness :
  GeneratePrivateKey loudKeeper w0 = (Returned (Some [x01], Some "busy"%string), w0) /\
  (exists r,
     secureSigner_GenerateKey (NewSecureSigner (Some loudKeeper)) w0 =
       (Returned (r, Some "busy"%string), w0) /\ r = None) /\
  (exists r,
     secureSigner_GetPublicKey (NewSecureSigner (Some loudKeeper)) key42 w0 =
       (Returned (r, Some "busy"%string), w0) /\ r = None) /\
  (exists res,
     secureSigner_Sign (NewSecureSigner (Some shortKeeper)) tx1 chain1 key42 w0 =
       (Returned (res, Some "wrong size for signature"%string), w_hashed) /\
     (res = None \/
      exists sig w2,
        Transaction_WithSignature tx1 chain1 sig w2 =
        (Returned (res, Some "wrong size for signature"%string), w_hashed))).
Proof.
  destruct (@secureSigner_error_means_nil_result sim (NewSecureSigner (Some loudKeeper)))
    as [Hgen [Hpub _]].
  destruct (@secureSigner_error_means_nil_result sim (NewSecureSigner (Some shortKeeper)))
    as [_ [_ Hsign]].
  split; [reflexivity|]. split; [|split].
  - eexists. split; [reflexivity|].
    apply (Hgen w0 None "busy"%string w0). reflexivity.
  - eexists. split; [reflexivity|].
    apply (Hpub key42 w0 None "busy"%string w0). reflexivity.
  - eexists. split; [reflexivity|].
    apply (Hsign tx1 chain1 key42 w0 None "wrong size for signature"%string w_hashed).
    reflexivity.
Defined.

(** The signer over the default keeper is the default keeper. *)
Lemma secureSigner_is_transparent_witness :
  secureSigner_GenerateKey DefaultSecureSigner w0 =
    defaultPrivateKeyKeeper_GeneratePrivateKey w0 /\
  secureSigner_GetPublicKey DefaultSecureSigner key42 w0 =
    defaultPrivateKeyKeeper_GetPublicKey key42 w0 /\
  secureSigner_GetPublicKey DefaultSecureSigner ten_bytes w0 =
    defaultPrivateKeyKeeper_GetPublicKey ten_bytes w0.
Proof.
  destruct (@secureSigner_is_transparent sim DefaultSecureSigner
              defaultPrivateKeyKeeper eq_refl
              (@GeneratePrivateKey_error_has_no_result sim)
              (@GetPublicKey_error_has_no_result sim)) as [Hgen Hpub].
  split; [exact (Hgen w0)|]. split; [exact (Hpub key42 w0)|exact (Hpub ten_bytes w0)].
Defined.

(** A nil transaction makes the hasher panic; a keeper that panics. *)
Lemma secureSigner_panic_cuts_short_witness :
  secureSigner_Sign DefaultSecureSigner None chain1 key42 w0 = (Panicked, w0) /\
  secureSigner_GenerateKey (NewSecureSigner (Some brokenKeeper)) w0 = (Panicked, w0) /\
  secureSigner_GetPublicKey (NewSecureSigner (Some brokenKeeper)) key42 w0 =
    (Panicked, w0) /\
  secureSigner_Sign (NewSecureSigner (Some brokenKeeper)) tx1 chain1 key42 w0 =
    (Panicked, w_hashed).
Proof.
  destruct (@secureSigner_panic_cuts_short sim DefaultSecureSigner) as [Hhash _].
  destruct (@secureSigner_panic_cuts_short sim (NewSecureSigner (Some brokenKeeper)))
    as [_ Hkeeper].
  destruct (Hkeeper brokenKeeper eq_refl) as [Hgen [Hpub Hsign]].
  split; [|split; [|split]].
  - apply Hhash. reflexivity.
  - apply Hgen. reflexivity.
  - apply Hpub. reflexivity.
  - apply (Hsign tx1 chain1 key42 w0 h1 w_hashed w_hashed); reflexivity.
Defined.

(** Ten bytes through both signers. *)
Lemma default_signers_refuse_unparseable_witness :
  crypto_ToECDSA ten_bytes = (None, Some "invalid length, need 256 bits"%string) /\
  secureSigner_GetPublicKey DefaultSecureSigner ten_bytes w0 =
    (Returned (None, Some "invalid length, need 256 bits"%string), w0) /\
  secureSigner_Sign DefaultSecureSigner tx1 chain1 ten_bytes w0 =
    (Returned (None, Some "invalid length, need 256 bits"%string), w_hashed) /\
  snd (SecureSign_Sign {| SecureSign_keeper := None |} tx1 chain1 ten_bytes) w0 =
    (Returned (None, Some "invalid length, need 256 bits"%string), w_hashed).
Proof.
  assert (Hparse : crypto_ToECDSA ten_bytes =
                   (None, Some "invalid length, need 256 bits"%string)) by reflexivity.
  destruct (@default_signers_refuse_unparseable sim ten_bytes None _ Hparse)
    as [Hpub Hsign].
  destruct (Hsign tx1 chain1 w0 h1 w_hashed eq_refl) as [Hsec Hzero].
  split; [exact Hparse|]. split; [exact (Hpub w0)|]. split; [exact Hsec|exact Hzero].
Defined.

(** Generate, derive, sign [tx1]: the attached signature verifies. *)
Lemma DefaultSecureSigner_end_to_end_witness :
  secureSigner_GenerateKey DefaultSecureSigner w0 = (Returned (key42, None), w_generated) /\
  secureSigner_GetPublicKey DefaultSecureSigner key42 w0 = (Returned (pub42, None), w0) /\
  secureSigner_Sign DefaultSecureSigner tx1 chain1 key42 w0 =
    (Returned (Some signed_tx1, None), w_done) /\
  exists sig w6,
    crypto_verifies pub42 (Hash_slice h1) sig = true /\
    Transaction_WithSignature tx1 chain1 sig w6 =
      (Returned (Some signed_tx1, None), w_done).
Proof.
  assert (Hgen : secureSigner_GenerateKey DefaultSecureSigner w0 =
                 (Returned (key42, None), w_generated)) by (vm_compute; reflexivity).
  assert (Hget : secureSigner_GetPublicKey DefaultSecureSigner key42 w0 =
                 (Returned (pub42, None), w0)) by (vm_compute; reflexivity).
  assert (Hh : Signer_Hash chain1 tx1 w0 = (Returned h1, w_hashed)) by reflexivity.
  assert (Hrun : secureSigner_Sign DefaultSecureSigner tx1 chain1 key42 w0 =
                 (Returned (Some signed_tx1, None), w_done))
    by (vm_compute; reflexivity).
  split; [exact Hgen|]. split; [exact Hget|]. split; [exact Hrun|].
  exact (@DefaultSecureSigner_end_to_end sim sim_laws _ _ _ _ _ _ _ _ _ _ _ _ _
           Hgen Hget Hh Hrun).
Defined.

(** The same through a [SecureSign] with no keeper set. *)
Lemma SecureSign_zero_value_end_to_end_witness :
  snd (SecureSign_Sign {| SecureSign_keeper := None |} tx1 chain1 key42) w0 =
    (Returned (Some signed_tx1, None), w_done) /\
  SecureSign_keeper
    (fst (SecureSign_Sign {| SecureSign_keeper := None |} tx1 chain1 key42)) =
    defaultKeeper /\
  exists sig w6,
    crypto_verifies pub42 (Hash_slice h1) sig = true /\
    Transaction_WithSignature tx1 chain1 sig w6 =
      (Returned (Some signed_tx1, None), w_done).
Proof.
  assert (Hgen : defaultPrivateKeyKeeper_GeneratePrivateKey w0 =
                 (Returned (key42, None), w_generated)) by (vm_compute; reflexivity).
  assert (Hget : defaultPrivateKeyKeeper_GetPublicKey key42 w0 =
                 (Returned (pub42, None), w0)) by (vm_compute; reflexivity).
  assert (Hh : Signer_Hash chain1 tx1 w0 = (Returned h1, w_hashed)) by reflexivity.
  assert (Hrun : snd (SecureSign_Sign {| SecureSign_keeper := None |}
                        tx1 chain1 key42) w0 =
                 (Returned (Some signed_tx1, None), w_done))
    by (vm_compute; reflexivity).
  split; [exact Hrun|].
  exact (@SecureSign_zero_value_end_to_end sim sim_laws _ _ _ _ _ _ _ _ _ _ _ _ _
           Hgen Hget Hh Hrun).
Defined.
